(** * The acme_registration resource: account lifecycle against an ACME CA

    A shallow embedding of [acme/resource_acme_registration.go]:
    the resource declaration [resourceACMERegistration], its three
    operations [resourceACMERegistrationCreate], [resourceACMERegistrationRead]
    and [resourceACMERegistrationDelete], and the classifier [regGone].

    Calls that leave the file (the client factory [expandACMEClient] and the
    registrar methods of the lego client) are events of a small program
    monad; an environment answers them and the run records every call. *)

From Stdlib Require Import ZArith Ascii String.
From stdpp Require Import gmap strings list fin_maps.

Open Scope Z_scope.
Open Scope string_scope.

(** ** Go errors *)

Module acme.

(** [acme.ProblemDetails] of lego: the RFC 7807 document of an ACME CA.
    Only [Type] and [HTTPStatus] are read by this file. *)
Record ProblemDetails := {
  Type_ : string;
  Detail : string;
  HTTPStatus : Z;
  Instance : string
}.

(** [acme.Account]: the account object a CA returns. *)
Record Account := {
  Status : string;
  Contact : list string
}.

End acme.

(** A Go [error] value, as far as [errors.As] can tell errors apart:
    a [*acme.ProblemDetails], an error with a message and nothing inside
    ([errors.New]), an error wrapping one error ([fmt.Errorf] with [%w]),
    or one wrapping several ([errors.Join]). *)
#[local] Unset Elimination Schemes.
Inductive error :=
| problemDetails (p : acme.ProblemDetails)
| errorString (s : string)
| wrapError (msg : string) (err : error)
| joinError (errs : list error).
#[local] Set Elimination Schemes.

Module errors.

(** [errors.As(err, &e)] with [e : *acme.ProblemDetails]: the first error of
    the chain, depth first, whose dynamic type is [*acme.ProblemDetails]. *)
Fixpoint As (err : error) : option acme.ProblemDetails :=
  match err with
  | problemDetails p => Some p
  | errorString _ => None
  | wrapError _ inner => As inner
  | joinError errs =>
      (fix first (l : list error) : option acme.ProblemDetails :=
         match l with
         | [] => None
         | e :: l' => match As e with
                      | Some p => Some p
                      | None => first l'
                      end
         end) errs
  end.

End errors.

Definition accountDoesNotExist := "urn:ietf:params:acme:error:accountDoesNotExist".
Definition unauthorized := "urn:ietf:params:acme:error:unauthorized".
Definition malformed := "urn:ietf:params:acme:error:malformed".
Definition externalAccountRequired := "urn:ietf:params:acme:error:externalAccountRequired".

(** [regGone]: lines 119-140. *)
Definition regGone (err : error) : bool :=
  match errors.As err with
  | None => false
  | Some e =>
      if Z.eqb (acme.HTTPStatus e) 400 && String.eqb (acme.Type_ e) accountDoesNotExist
      then true
      else if Z.eqb (acme.HTTPStatus e) 403 && String.eqb (acme.Type_ e) unauthorized
      then true
      else false
  end.

(** A Go call returning [(x, err)]. *)
Inductive result (A : Type) :=
| Ok (a : A)
| Err (err : error).
Arguments Ok {A} a.
Arguments Err {A} err.

(** ** Terraform plugin SDK: values, schemas, resource data, diagnostics *)

(** A Go [interface{}] as the SDK hands it out. *)
#[local] Unset Elimination Schemes.
Inductive value :=
| VNil
| VBool (b : bool)
| VInt (n : Z)
| VString (s : string)
| VList (l : list value)
| VMap (m : gmap string value).
#[local] Set Elimination Schemes.

Module schema.

Inductive ValueType :=
| TypeBool | TypeInt | TypeFloat | TypeString | TypeList | TypeMap | TypeSet.

(** [schema.Schema]; [Elem] is either absent or a nested [&schema.Resource]
    of which only the field schemas matter. *)
#[local] Unset Elimination Schemes.
Inductive Schema :=
| mkSchema (Type_ : ValueType) (Required Optional Computed ForceNew Sensitive : bool)
           (MaxItems : nat) (Elem : option (list (string * Schema))).
#[local] Set Elimination Schemes.

Definition Type_ (s : Schema) := let 'mkSchema t _ _ _ _ _ _ _ := s in t.
Definition Required (s : Schema) := let 'mkSchema _ b _ _ _ _ _ _ := s in b.
Definition Optional (s : Schema) := let 'mkSchema _ _ b _ _ _ _ _ := s in b.
Definition Computed (s : Schema) := let 'mkSchema _ _ _ b _ _ _ _ := s in b.
Definition ForceNew (s : Schema) := let 'mkSchema _ _ _ _ b _ _ _ := s in b.
Definition Sensitive (s : Schema) := let 'mkSchema _ _ _ _ _ b _ _ := s in b.
Definition MaxItems (s : Schema) := let 'mkSchema _ _ _ _ _ _ n _ := s in n.
Definition Elem (s : Schema) := let 'mkSchema _ _ _ _ _ _ _ e := s in e.

(** Writing a schema literal: the type first, then each field that is set;
    the fields left out are Go's zero values. *)
Definition ofType (t : ValueType) : Schema := mkSchema t false false false false false 0 None.
Definition withRequired (s : Schema) : Schema :=
  let 'mkSchema t _ o c f x n e := s in mkSchema t true o c f x n e.
Definition withOptional (s : Schema) : Schema :=
  let 'mkSchema t r _ c f x n e := s in mkSchema t r true c f x n e.
Definition withComputed (s : Schema) : Schema :=
  let 'mkSchema t r o _ f x n e := s in mkSchema t r o true f x n e.
Definition withForceNew (s : Schema) : Schema :=
  let 'mkSchema t r o c _ x n e := s in mkSchema t r o c true x n e.
Definition withSensitive (s : Schema) : Schema :=
  let 'mkSchema t r o c f _ n e := s in mkSchema t r o c f true n e.
Definition withMaxItems (k : nat) (s : Schema) : Schema :=
  let 'mkSchema t r o c f x _ e := s in mkSchema t r o c f x k e.
Definition withElem (fields : list (string * Schema)) (s : Schema) : Schema :=
  let 'mkSchema t r o c f x n _ := s in mkSchema t r o c f x n (Some fields).

(** A Go map literal [map[string]*schema.Schema]. *)
Definition SchemaMap := list (string * Schema).

Fixpoint lookup (key : string) (m : SchemaMap) : option Schema :=
  match m with
  | [] => None
  | (k, s) :: m' => if String.eqb k key then Some s else lookup key m'
  end.

(** [schema.Resource], over the type [Op] of its operations. *)
Record Resource (Op : Type) := {
  CreateContext : option Op;
  ReadContext : option Op;
  UpdateContext : option Op;
  DeleteContext : option Op;
  Schema_ : SchemaMap
}.
Arguments CreateContext {Op} _.
Arguments ReadContext {Op} _.
Arguments UpdateContext {Op} _.
Arguments DeleteContext {Op} _.
Arguments Schema_ {Op} _.

(** [ValueType.Zero()]. *)
Definition Zero (t : ValueType) : value :=
  match t with
  | TypeBool => VBool false
  | TypeInt => VInt 0
  | TypeFloat => VNil
  | TypeString => VString ""
  | TypeList => VList []
  | TypeMap => VMap ∅
  | TypeSet => VNil
  end.

(** [reflect.DeepEqual(v, t.Zero())]. *)
Definition isZero (t : ValueType) (v : value) : bool :=
  match t, v with
  | TypeBool, VBool b => negb b
  | TypeInt, VInt n => Z.eqb n 0
  | TypeString, VString s => String.eqb s ""
  | TypeList, VList [] => true
  | TypeMap, VMap m => bool_decide (dom m = ∅)
  | _, _ => false
  end.

(** [schema.ResourceData]: the ID and the attribute values. *)
Record ResourceData := {
  Id : string;
  attrs : gmap string value
}.

(** [d.SetId(v)]. *)
Definition SetId (d : ResourceData) (v : string) : ResourceData :=
  {| Id := v; attrs := attrs d |}.

(** [d.GetOk(key)] for a resource with schema [sm]: the value (the zero of
    its type when unset) and whether it differs from that zero. *)
Definition GetOk (sm : SchemaMap) (d : ResourceData) (key : string) : value * bool :=
  match lookup key sm with
  | None => (VNil, false)
  | Some s =>
      let v := default (Zero (Type_ s)) (attrs d !! key) in
      (v, negb (isZero (Type_ s) v))
  end.

(** A value has the shape schema [s] describes: a string for [TypeString];
    for [TypeList] with a nested resource, a list of at most [MaxItems]
    maps holding every field of the nested schema. The SDK hands out more
    than this: a block whose fields are all zero values is read as a nil
    element (see [readBlock] below), which is not of this shape. *)
Fixpoint conforms (s : Schema) (v : value) {struct s} : bool :=
  match s with
  | mkSchema t _ _ _ _ _ maxItems elem =>
      match t, v with
      | TypeBool, VBool _ => true
      | TypeInt, VInt _ => true
      | TypeString, VString _ => true
      | TypeList, VList l =>
          ((maxItems =? 0)%nat || (length l <=? maxItems)%nat) &&
          match elem with
          | None => true
          | Some fields =>
              forallb (fun item =>
                match item with
                | VMap m =>
                    (fix all (fs : list (string * Schema)) : bool :=
                       match fs with
                       | [] => true
                       | (k, s') :: fs' =>
                           match m !! k with
                           | Some v' => conforms s' v' && all fs'
                           | None => false
                           end
                       end) fields
                | _ => false
                end) l
          end
      | _, _ => false
      end
  end.

(** Every attribute of [d] that is set has the shape of its schema, and
    every required one is set; on such a record the binding can be read. *)
Definition wellTyped (sm : SchemaMap) (d : ResourceData) : bool :=
  forallb (fun '(k, s) =>
    match attrs d !! k with
    | Some v => conforms s v
    | None => negb (Required s)
    end) sm.

End schema.

Module diag.

Inductive Severity := Error | Warning.

Record Diagnostic := {
  Severity_ : Severity;
  Summary : string;
  Detail : string
}.

Definition Diagnostics := list Diagnostic.

Definition HasError (ds : Diagnostics) : bool :=
  existsb (fun d => match Severity_ d with Error => true | Warning => false end) ds.

End diag.

Import schema.

(** ** lego: registrations and the client *)

Module registration.

(** [registration.Resource]. *)
Record Resource := {
  Body : acme.Account;
  URI : string
}.

Module RegisterOptions.
Record t := { TermsOfServiceAgreed : bool }.
End RegisterOptions.

Module RegisterEABOptions.
Record t := {
  TermsOfServiceAgreed : bool;
  Kid : string;
  HmacEncoded : string
}.
End RegisterEABOptions.

End registration.

Module lego.

(** [lego.Client]: a client bound to an account key and a CA directory. *)
Record Client := {
  accountKey : string;
  CADirURL : string
}.

End lego.

(** [acmeUser] is declared outside this file; [Registration] is the one
    field this file reads, a pointer that may be nil. *)
Record acmeUser := {
  Email : string;
  Registration : option registration.Resource
}.

(** The provider configuration behind [meta]; it is only passed on. *)
Record Config := {
  ServerURL : string
}.

(** ** Programs that call out *)

(** The calls of this file that leave it, indexed by what they return.
    [expandACMEClient] (declared outside this file) builds the client from
    the resource data and, with [loadReg], asks the CA for the account of
    the key; the other three are methods of [client.Registration]. *)
Inductive Call : Type -> Type :=
| expandACMEClient (d : ResourceData) (meta : Config) (loadReg : bool)
  : Call (result (lego.Client * acmeUser))
| Register (client : lego.Client) (options : registration.RegisterOptions.t)
  : Call (result registration.Resource)
| RegisterWithExternalAccountBinding
    (client : lego.Client) (options : registration.RegisterEABOptions.t)
  : Call (result registration.Resource)
| DeleteRegistration (client : lego.Client)
  : Call (option error).

Inductive Prog (A : Type) : Type :=
| Ret (a : A)
| Panic
| Vis (R : Type) (c : Call R) (k : R -> Prog A).
Arguments Ret {A} a.
Arguments Panic {A}.
Arguments Vis {A R} c k.

Fixpoint bind {A B} (p : Prog A) (f : A -> Prog B) : Prog B :=
  match p with
  | Ret a => f a
  | Panic => Panic
  | Vis c k => Vis c (fun r => bind (k r) f)
  end.

Definition call {R} (c : Call R) : Prog R := Vis c Ret.

(** A failed type assertion or index panics. *)
Definition assert {A} (o : option A) : Prog A :=
  match o with
  | Some a => Ret a
  | None => Panic
  end.

Declare Scope prog_scope.
Delimit Scope prog_scope with prog.
Notation "x <- c ;; k" := (bind c (fun x => k))
  (at level 100, c at next level, right associativity) : prog_scope.

(** One call together with its answer. *)
Inductive Event :=
| Ev (R : Type) (c : Call R) (r : R).
Arguments Ev {R} c r.

(** An environment answers each call from its state [W]. *)
Definition Env (W : Type) := forall R, Call R -> W -> R * W.

Record Outcome (W A : Type) := {
  returned : option A;
  trace : list Event;
  final : W
}.
Arguments returned {W A} _.
Arguments trace {W A} _.
Arguments final {W A} _.

(** Running a program: [returned] is [None] when it panicked. *)
Fixpoint run {W A} (env : Env W) (p : Prog A) (w : W) : Outcome W A :=
  match p with
  | Ret a => {| returned := Some a; trace := []; final := w |}
  | Panic => {| returned := None; trace := []; final := w |}
  | Vis c k =>
      let (r, w') := env _ c w in
      let o := run env (k r) w' in
      {| returned := returned o; trace := Ev c r :: trace o; final := final o |}
  end.

Definition isRegistration (e : Event) : bool :=
  match e with
  | Ev c _ =>
      match c with
      | Register _ _ | RegisterWithExternalAccountBinding _ _ => true
      | _ => false
      end
  end.

(** ** Type assertions on the binding *)

Definition asList (v : value) : option (list value) :=
  match v with VList l => Some l | _ => None end.
Definition asMap (v : value) : option (gmap string value) :=
  match v with VMap m => Some m | _ => None end.
Definition asString (v : value) : option string :=
  match v with VString s => Some s | _ => None end.

(** [v.([]interface{})[0].(map[string]interface{})[key].(string)];
    a missing map key reads as the nil interface. *)
Definition eabField (v : value) (key : string) : option string :=
  l ← asList v;
  item ← l !! 0%nat;
  m ← asMap item;
  asString (default VNil (m !! key)).

(** ** The resource *)

(** The schema of lines 22-60. *)
Definition registrationSchema : SchemaMap :=
  [ ("account_key_pem",
      withSensitive (withForceNew (withRequired (ofType TypeString))));
    ("email_address",
      withForceNew (withRequired (ofType TypeString)));
    ("external_account_binding",
      withElem
        [ ("key_id", withForceNew (withSensitive (withRequired (ofType TypeString))));
          ("hmac_base64", withForceNew (withSensitive (withRequired (ofType TypeString)))) ]
        (withForceNew (withMaxItems 1 (withOptional (ofType TypeList)))));
    ("registration_url",
      withComputed (ofType TypeString)) ].

Section Operations.

(** The [Error()] method of [acme.ProblemDetails], lego's rendering of a
    problem document. *)
Variable ProblemDetails_Error : acme.ProblemDetails -> string.

(** [saveACMERegistration(d, reg)] is declared outside this file: it stores
    what it keeps of the registration in [d] and may fail. *)
Variable saveACMERegistration :
  ResourceData -> option registration.Resource -> ResourceData * option error.

(** [err.Error()]. *)
Fixpoint Error_ (err : error) : string :=
  match err with
  | problemDetails p => ProblemDetails_Error p
  | errorString s => s
  | wrapError msg _ => msg
  | joinError errs =>
      (fix lines (l : list error) : string :=
         match l with
         | [] => ""
         | [e] => Error_ e
         | e :: l' => Error_ e ++ String "010"%char (lines l')
         end) errs
  end.

(** [diag.FromErr(err)]. *)
Definition FromErr (err : option error) : diag.Diagnostics :=
  match err with
  | None => []
  | Some e =>
      [ {| diag.Severity_ := diag.Error; diag.Summary := Error_ e; diag.Detail := "" |} ]
  end.

Open Scope prog_scope.

(** Lines 95-108. *)
Definition resourceACMERegistrationRead (d : ResourceData) (meta : Config)
  : Prog (ResourceData * diag.Diagnostics) :=
  r <- call (expandACMEClient d meta true) ;;
  match r with
  | Err err =>
      if regGone err then Ret (SetId d "", [])
      else Ret (d, FromErr (Some err))
  | Ok (_, user) =>
      let (d', err) := saveACMERegistration d (Registration user) in
      Ret (d', FromErr err)
  end.

(** Lines 71-84: the registration call, chosen by whether the binding is set. *)
Definition register (d : ResourceData) (client : lego.Client)
  : Prog (result registration.Resource) :=
  let (v, ok) := GetOk registrationSchema d "external_account_binding" in
  if ok then
    kid <- assert (eabField v "key_id") ;;
    hmac <- assert (eabField v "hmac_base64") ;;
    call (RegisterWithExternalAccountBinding client
            {| registration.RegisterEABOptions.TermsOfServiceAgreed := true;
               registration.RegisterEABOptions.Kid := kid;
               registration.RegisterEABOptions.HmacEncoded := hmac |})
  else
    call (Register client
            {| registration.RegisterOptions.TermsOfServiceAgreed := true |}).

(** Lines 64-93. *)
Definition resourceACMERegistrationCreate (d : ResourceData) (meta : Config)
  : Prog (ResourceData * diag.Diagnostics) :=
  r <- call (expandACMEClient d meta false) ;;
  match r with
  | Err err => Ret (d, FromErr (Some err))
  | Ok (client, _) =>
      r <- register d client ;;
      match r with
      | Err err => Ret (d, FromErr (Some err))
      | Ok reg => resourceACMERegistrationRead (SetId d (registration.URI reg)) meta
      end
  end.

(** Lines 110-117. *)
Definition resourceACMERegistrationDelete (d : ResourceData) (meta : Config)
  : Prog (ResourceData * diag.Diagnostics) :=
  r <- call (expandACMEClient d meta true) ;;
  match r with
  | Err err => Ret (d, FromErr (Some err))
  | Ok (client, _) =>
      err <- call (DeleteRegistration client) ;;
      Ret (d, FromErr err)
  end.

(** Lines 17-62: create, read and delete, and the schema. *)
Definition resourceACMERegistration
  : Resource (ResourceData -> Config -> Prog (ResourceData * diag.Diagnostics)) :=
  {| CreateContext := Some resourceACMERegistrationCreate;
     ReadContext := Some resourceACMERegistrationRead;
     UpdateContext := None;
     DeleteContext := Some resourceACMERegistrationDelete;
     Schema_ := registrationSchema |}.

End Operations.

(** ** Names used by the statements below *)

(** The key of the binding, and the three attributes the caller supplies. *)
Definition eabKey := "external_account_binding".

Definition writeOnce : list string :=
  ["account_key_pem"; "email_address"; "external_account_binding"].


Definition writesOnlyURL
    (save : ResourceData -> option registration.Resource -> ResourceData * option error)
  : Prop :=
  forall d reg key, key <> "registration_url" ->
    attrs (save d reg).1 !! key = attrs d !! key.

(** ** A CA to run the operations against

    [TestCA] answers the calls the way an RFC 8555 CA does for the cases the
    resource cares about: unknown keys, deactivated accounts, external
    account binding, and a network that goes down after a number of calls. *)

Module TestCA.

Record State := {
  accounts : gmap string (string * string); (* account key to (URL, status) *)
  requiredBinding : option (string * string); (* the binding the CA insists on *)
  budget : option nat                        (* calls answered before the outage *)
}.

Definition problem (status : Z) (type : string) : error :=
  problemDetails {| acme.Type_ := type; acme.Detail := ""; acme.HTTPStatus := status;
                    acme.Instance := "" |}.

Definition networkError : error :=
  wrapError "get directory: dial tcp: connection refused" (errorString "connection refused").

Definition spend (w : State) : option State :=
  match budget w with
  | None => Some w
  | Some O => None
  | Some (S n) =>
      Some {| accounts := accounts w; requiredBinding := requiredBinding w; budget := Some n |}
  end.

Definition setAccounts (w : State) (a : gmap string (string * string)) : State :=
  {| accounts := a; requiredBinding := requiredBinding w; budget := budget w |}.

Definition accountURL (key : string) : string := "https://ca.example/acct/" ++ key.

Definition newAccount (w : State) (client : lego.Client)
  : result registration.Resource * State :=
  let key := lego.accountKey client in
  let url := accountURL key in
  (Ok {| registration.Body := {| acme.Status := "valid"; acme.Contact := [] |};
         registration.URI := url |},
   setAccounts w (<[key := (url, "valid")]> (accounts w))).

Definition env : Env State := fun R c =>
  match c in Call R return State -> R * State with
  | expandACMEClient d meta loadReg => fun w =>
      match attrs d !! "account_key_pem", spend w with
      | Some (VString key), Some w' =>
          let client := {| lego.accountKey := key; lego.CADirURL := ServerURL meta |} in
          if loadReg then
            match accounts w' !! key with
            | None => (Err (problem 400 accountDoesNotExist), w')
            | Some (url, status) =>
                if String.eqb status "valid" then
                  (Ok (client,
                       {| Email := "";
                          Registration :=
                            Some {| registration.Body :=
                                      {| acme.Status := status; acme.Contact := [] |};
                                    registration.URI := url |} |}), w')
                else (Err (problem 403 unauthorized), w')
            end
          else (Ok (client, {| Email := ""; Registration := None |}), w')
      | Some (VString _), None => (Err networkError, w)
      | _, _ => (Err (errorString "error getting user data"), w)
      end
  | Register client options => fun w =>
      match spend w with
      | None => (Err networkError, w)
      | Some w' =>
          match requiredBinding w' with
          | Some _ => (Err (problem 400 externalAccountRequired), w')
          | None => newAccount w' client
          end
      end
  | RegisterWithExternalAccountBinding client options => fun w =>
      match spend w with
      | None => (Err networkError, w)
      | Some w' =>
          match requiredBinding w' with
          | Some (kid, hmac) =>
              if String.eqb kid (registration.RegisterEABOptions.Kid options)
                 && String.eqb hmac (registration.RegisterEABOptions.HmacEncoded options)
              then newAccount w' client
              else (Err (problem 403 unauthorized), w')
          | None => (Err (problem 400 malformed), w')
          end
      end
  | DeleteRegistration client => fun w =>
      match spend w with
      | None => (Some networkError, w)
      | Some w' =>
          let key := lego.accountKey client in
          match accounts w' !! key with
          | Some (url, status) =>
              if String.eqb status "valid"
              then (None, setAccounts w' (<[key := (url, "deactivated")]> (accounts w')))
              else (Some (problem 403 unauthorized), w')
          | None => (Some (problem 400 accountDoesNotExist), w')
          end
      end
  end.

(** A rendering of problem documents for the runs below. *)
Definition render (p : acme.ProblemDetails) : string :=
  "acme: error: " ++ acme.Type_ p ++ " :: " ++ acme.Detail p.

(** Modelled from the spec: [saveACMERegistration] is not under src/.
    Section 6 lists [registration_url] as the derived field set after
    create, so the helper stores the registration's URL there and nothing
    else. *)
Definition save (d : ResourceData) (reg : option registration.Resource)
  : ResourceData * option error :=
  match reg with
  | Some r =>
      ({| Id := Id d;
          attrs := <["registration_url" := VString (registration.URI r)]> (attrs d) |}, None)
  | None => (d, None)
  end.

Definition fresh : State := {| accounts := ∅; requiredBinding := None; budget := None |}.

Definition meta : Config := {| ServerURL := "https://ca.example/directory" |}.

(** A record for key [keyA] with no binding, and one with a binding. *)
Definition plain : ResourceData :=
  {| Id := "";
     attrs := {[ "account_key_pem" := VString "keyA";
                 "email_address" := VString "a@example.com" ]} |}.

Definition bound : ResourceData :=
  {| Id := "";
     attrs := {[ "account_key_pem" := VString "keyB";
                 "email_address" := VString "b@example.com";
                 "external_account_binding" :=
                   VList [ VMap {[ "key_id" := VString "K1";
                                   "hmac_base64" := VString "aGVsbG8=" ]} ] ]} |}.

Definition Create := resourceACMERegistrationCreate render save.
Definition Read := resourceACMERegistrationRead render save.
Definition Delete := resourceACMERegistrationDelete render.

(** [plain] after a create against the fresh CA, and the CA after it. *)
Definition created : Outcome State (ResourceData * diag.Diagnostics) :=
  run env (Create plain meta) fresh.
Definition registered : ResourceData :=
  default plain (fst <$> returned created).

(** A stored record whose key the CA has never seen. *)
Definition stale : ResourceData := SetId plain (accountURL "keyA").

(** A CA that cannot be reached, and one that answers two calls only. *)
Definition down : State :=
  {| accounts := ∅; requiredBinding := None; budget := Some 0%nat |}.
Definition flaky : State :=
  {| accounts := ∅; requiredBinding := None; budget := Some 2%nat |}.

(** A CA that insists on a binding other than the one [bound] carries. *)
Definition strict : State :=
  {| accounts := ∅; requiredBinding := Some ("K1", "c2VjcmV0"); budget := None |}.

End TestCA.

(** ** Further names for the statements below *)

(** Whether a problem document sits anywhere inside the error. *)
Fixpoint hasProblem (err : error) : bool :=
  match err with
  | problemDetails _ => true
  | errorString _ => false
  | wrapError _ inner => hasProblem inner
  | joinError errs => existsb hasProblem errs
  end.

(** Whether [errors.As] finds a problem document in the error. *)
Definition carriesDocument (err : error) : bool :=
  match errors.As err with
  | Some _ => true
  | None => false
  end.

Definition isDeactivation (e : Event) : bool :=
  match e with
  | Ev c _ =>
      match c with
      | DeleteRegistration _ => true
      | _ => false
      end
  end.

(** An environment that answers from a script: the n-th call gets the n-th
    answer of its kind. *)
Module Script.

Record Answers := {
  onBuild : nat -> result (lego.Client * acmeUser);
  onRegister : nat -> result registration.Resource;
  onDelete : nat -> option error
}.

Definition env (a : Answers) : Env nat := fun R c =>
  match c in Call R return nat -> R * nat with
  | expandACMEClient _ _ _ => fun n => (onBuild a n, S n)
  | Register _ _ => fun n => (onRegister a n, S n)
  | RegisterWithExternalAccountBinding _ _ => fun n => (onRegister a n, S n)
  | DeleteRegistration _ => fun n => (onDelete a n, S n)
  end.

Definition client : lego.Client :=
  {| lego.accountKey := "keyA"; lego.CADirURL := "https://ca.example/directory" |}.

Definition account : registration.Resource :=
  {| registration.Body := {| acme.Status := "valid"; acme.Contact := [] |};
     registration.URI := "https://ca.example/acct/1" |}.

(** The CA registers the account and has lost it by the next lookup. *)
Definition forgetful : Answers :=
  {| onBuild := fun n =>
       match n with
       | O => Ok (client, {| Email := ""; Registration := None |})
       | _ => Err (TestCA.problem 400 accountDoesNotExist)
       end;
     onRegister := fun _ => Ok account;
     onDelete := fun _ => None |}.

End Script.

(** A CA that insists on the binding [TestCA.bound] carries. *)
Definition enrolling : TestCA.State :=
  {| TestCA.accounts := ∅;
     TestCA.requiredBinding := Some ("K1", "aGVsbG8=");
     TestCA.budget := None |}.

(** ** What the caller configures, and how the SDK reads it *)

(** A configuration of the resource under the schema of lines 22-60: the
    two required strings and the binding blocks, each with its two required
    strings [(key_id, hmac_base64)]. *)
Record Configured := {
  account_key_pem : string;
  email_address : string;
  external_account_binding : list (string * string)
}.

(** The schema's one constraint that the type leaves open: [MaxItems: 1]. *)
Definition satisfiesSchema (c : Configured) : bool :=
  (length (external_account_binding c) <=? 1)%nat.

(** The SDK's reading of a nested block into an element of the
    [[]interface{}]: a block none of whose fields differs from its zero
    value is read as nil, any other as the map of its fields. *)
Definition readBlock (b : string * string) : value :=
  if String.eqb b.1 "" && String.eqb b.2 "" then VNil
  else VMap {[ "key_id" := VString b.1; "hmac_base64" := VString b.2 ]}.

(** The resource data create receives for a configuration. *)
Definition readConfigured (c : Configured) : ResourceData :=
  {| Id := "";
     attrs := <[ "external_account_binding" :=
                   VList (readBlock <$> external_account_binding c) ]>
              {[ "account_key_pem" := VString (account_key_pem c);
                 "email_address" := VString (email_address c) ]} |}.

(** A binding block with both strings empty. *)
Definition emptyBinding : Configured :=
  {| account_key_pem := "keyB";
     email_address := "b@example.com";
     external_account_binding := [("", "")] |}.



(** ** Running the operations *)

Lemma run_bind {W A B} (env : Env W) (p : Prog A) (f : A -> Prog B) (w : W) :
  run env (bind p f) w =
  let o := run env p w in
  match returned o with
  | None => {| returned := None; trace := trace o; final := final o |}
  | Some a =>
      let o' := run env (f a) (final o) in
      {| returned := returned o'; trace := trace o ++ trace o'; final := final o' |}
  end.
Proof.
  revert w. induction p as [a| |R c k IH]; intros w; cbn.
  - by destruct (run env (f a) w).
  - done.
  - destruct (env R c w) as [r w']. rewrite IH. cbn.
    by destruct (returned (run env (k r) w')).
Qed.

Lemma run_call {W R} (env : Env W) (c : Call R) (w : W) :
  run env (call c) w =
  {| returned := Some (env R c w).1; trace := [Ev c (env R c w).1]; final := (env R c w).2 |}.
Proof. cbn. by destruct (env R c w). Qed.

(** ** The binding under the schema *)

Lemma GetOk_binding (d : ResourceData) :
  GetOk registrationSchema d eabKey =
  let v := default (VList []) (attrs d !! eabKey) in (v, negb (isZero TypeList v)).
Proof. reflexivity. Qed.

(** Under the schema the binding is unset or empty, or it is one map with
    both strings. *)
Lemma binding_cases (d : ResourceData) :
  wellTyped registrationSchema d = true ->
  ((attrs d !! eabKey = None \/ attrs d !! eabKey = Some (VList [])) /\
   GetOk registrationSchema d eabKey = (VList [], false))
  \/
  (exists m kid hmac,
     attrs d !! eabKey = Some (VList [VMap m]) /\
     m !! "key_id" = Some (VString kid) /\
     m !! "hmac_base64" = Some (VString hmac) /\
     GetOk registrationSchema d eabKey = (VList [VMap m], true)).
Proof.
  intros Hwt. rewrite GetOk_binding.
  unfold wellTyped, registrationSchema in Hwt. cbn [forallb] in Hwt.
  apply andb_prop in Hwt as [_ Hwt]. apply andb_prop in Hwt as [_ Hwt].
  apply andb_prop in Hwt as [Hb _]. fold eabKey in Hb.
  destruct (attrs d !! eabKey) as [v|] eqn:Hv; [|left; cbn; auto].
  destruct v as [| | | |l|]; try discriminate Hb.
  destruct l as [|item l]; [left; cbn; auto|].
  right. cbn in Hb.
  destruct l as [|item' l]; [|discriminate Hb].
  destruct item as [| | | | |m]; try discriminate Hb.
  cbn in Hb.
  destruct (m !! "key_id") as [[| | |kid| |]|] eqn:Hk; try discriminate Hb.
  destruct (m !! "hmac_base64") as [[| | |hmac| |]|] eqn:Hh; try discriminate Hb.
  exists m, kid, hmac. cbn. auto.
Qed.

Lemma eabField_binding (m : gmap string value) (key s : string) :
  m !! key = Some (VString s) -> eabField (VList [VMap m]) key = Some s.
Proof. intros H. cbn. by rewrite H. Qed.

Section Lifecycle.

Variable render : acme.ProblemDetails -> string.
Variable save : ResourceData -> option registration.Resource -> ResourceData * option error.
Variable W : Type.
Variable env : Env W.

#[local] Abbreviation Read := (resourceACMERegistrationRead render save).
#[local] Abbreviation Create := (resourceACMERegistrationCreate render save).
#[local] Abbreviation Delete := (resourceACMERegistrationDelete render).
#[local] Abbreviation FromErr := (FromErr render).

Lemma run_Read_gone d meta w e w' :
  env _ (expandACMEClient d meta true) w = (Err e, w') ->
  regGone e = true ->
  run env (Read d meta) w =
  {| returned := Some (SetId d "", []);
     trace := [Ev (expandACMEClient d meta true) (Err e)];
     final := w' |}.
Proof. intros He Hg. cbn. rewrite He. cbn. by rewrite Hg. Qed.

Lemma run_Read_fatal d meta w e w' :
  env _ (expandACMEClient d meta true) w = (Err e, w') ->
  regGone e = false ->
  run env (Read d meta) w =
  {| returned := Some (d, FromErr (Some e));
     trace := [Ev (expandACMEClient d meta true) (Err e)];
     final := w' |}.
Proof. intros He Hg. cbn. rewrite He. cbn. by rewrite Hg. Qed.

Lemma run_Read_ok d meta w client user w' :
  env _ (expandACMEClient d meta true) w = (Ok (client, user), w') ->
  run env (Read d meta) w =
  {| returned := Some ((save d (Registration user)).1, FromErr (save d (Registration user)).2);
     trace := [Ev (expandACMEClient d meta true) (Ok (client, user))];
     final := w' |}.
Proof. intros He. cbn. rewrite He. cbn. by destruct (save d (Registration user)). Qed.

Lemma run_Delete_lookup_err d meta w e w' :
  env _ (expandACMEClient d meta true) w = (Err e, w') ->
  run env (Delete d meta) w =
  {| returned := Some (d, FromErr (Some e));
     trace := [Ev (expandACMEClient d meta true) (Err e)];
     final := w' |}.
Proof. intros He. cbn. by rewrite He. Qed.

Lemma run_Delete_lookup_ok d meta w client user w' :
  env _ (expandACMEClient d meta true) w = (Ok (client, user), w') ->
  run env (Delete d meta) w =
  {| returned := Some (d, FromErr (env _ (DeleteRegistration client) w').1);
     trace := [Ev (expandACMEClient d meta true) (Ok (client, user));
               Ev (DeleteRegistration client) (env _ (DeleteRegistration client) w').1];
     final := (env _ (DeleteRegistration client) w').2 |}.
Proof.
  intros He. cbn. rewrite He. cbn.
  by destruct (env _ (DeleteRegistration client) w').
Qed.

Lemma run_Create_client_err d meta w e w' :
  env _ (expandACMEClient d meta false) w = (Err e, w') ->
  run env (Create d meta) w =
  {| returned := Some (d, FromErr (Some e));
     trace := [Ev (expandACMEClient d meta false) (Err e)];
     final := w' |}.
Proof. intros He. cbn. by rewrite He. Qed.

(** After the client is built, create is the registration step followed by
    what its answer selects. *)
Lemma run_Create_client_ok d meta w client user w' :
  env _ (expandACMEClient d meta false) w = (Ok (client, user), w') ->
  run env (Create d meta) w =
  let o := run env (register d client) w' in
  let first := Ev (expandACMEClient d meta false) (Ok (client, user)) in
  match returned o with
  | None => {| returned := None; trace := first :: trace o; final := final o |}
  | Some (Err e) =>
      {| returned := Some (d, FromErr (Some e)); trace := first :: trace o; final := final o |}
  | Some (Ok reg) =>
      let o' := run env (Read (SetId d (registration.URI reg)) meta) (final o) in
      {| returned := returned o'; trace := first :: trace o ++ trace o'; final := final o' |}
  end.
Proof.
  intros He. unfold resourceACMERegistrationCreate.
  cbn [bind call run]. rewrite He. cbn [bind].
  rewrite run_bind. cbn zeta.
  destruct (returned (run env (register d client) w')) as [[reg|e]|]; cbn.
  - done.
  - by rewrite app_nil_r.
  - done.
Qed.

Lemma run_Read d meta w :
  run env (Read d meta) w =
  let r := (env _ (expandACMEClient d meta true) w).1 in
  {| returned :=
       Some match r with
            | Err e => if regGone e then (SetId d "", []) else (d, FromErr (Some e))
            | Ok (_, user) =>
                ((save d (Registration user)).1, FromErr (save d (Registration user)).2)
            end;
     trace := [Ev (expandACMEClient d meta true) r];
     final := (env _ (expandACMEClient d meta true) w).2 |}.
Proof.
  cbn. destruct (env _ (expandACMEClient d meta true) w) as [[[client user]|e] w']; cbn.
  - by destruct (save d (Registration user)).
  - by destruct (regGone e).
Qed.

Lemma run_register_plain d client w :
  GetOk registrationSchema d eabKey = (VList [], false) ->
  let c := Register client {| registration.RegisterOptions.TermsOfServiceAgreed := true |} in
  run env (register d client) w =
  {| returned := Some (env _ c w).1; trace := [Ev c (env _ c w).1]; final := (env _ c w).2 |}.
Proof.
  intros Hg c. unfold register. fold eabKey. rewrite Hg. apply run_call.
Qed.

Lemma run_register_eab d client w m kid hmac :
  GetOk registrationSchema d eabKey = (VList [VMap m], true) ->
  m !! "key_id" = Some (VString kid) ->
  m !! "hmac_base64" = Some (VString hmac) ->
  let c := RegisterWithExternalAccountBinding client
             {| registration.RegisterEABOptions.TermsOfServiceAgreed := true;
                registration.RegisterEABOptions.Kid := kid;
                registration.RegisterEABOptions.HmacEncoded := hmac |} in
  run env (register d client) w =
  {| returned := Some (env _ c w).1; trace := [Ev c (env _ c w).1]; final := (env _ c w).2 |}.
Proof.
  intros Hg Hk Hh c. unfold register. fold eabKey. rewrite Hg.
  rewrite (eabField_binding _ _ _ Hk), (eabField_binding _ _ _ Hh).
  cbn [assert bind]. apply run_call.
Qed.

(** The registration step of a well-typed record answers; it does not panic. *)
Lemma register_returns d client w :
  wellTyped registrationSchema d = true ->
  exists (c : Call (result registration.Resource)),
    isRegistration (Ev c (env _ c w).1) = true /\
    run env (register d client) w =
    {| returned := Some (env _ c w).1; trace := [Ev c (env _ c w).1]; final := (env _ c w).2 |}.
Proof.
  intros Hwt. destruct (binding_cases d Hwt) as [[_ Hg]|(m & kid & hmac & _ & Hk & Hh & Hg)].
  - eexists. split; [|by apply run_register_plain]. done.
  - eexists. split; [|by eapply run_register_eab]. done.
Qed.

Lemma Read_returns d meta w : is_Some (returned (run env (Read d meta) w)).
Proof. rewrite run_Read. by eexists. Qed.

Lemma Read_frame d meta w d' ds key :
  writesOnlyURL save ->
  returned (run env (Read d meta) w) = Some (d', ds) ->
  key <> "registration_url" ->
  attrs d' !! key = attrs d !! key.
Proof.
  intros Hs Hr Hk. rewrite run_Read in Hr. cbn in Hr.
  destruct (env _ (expandACMEClient d meta true) w).1 as [[client user]|e].
  - injection Hr as <- _. by apply Hs.
  - by destruct (regGone e); injection Hr as <- _.
Qed.

Lemma Delete_frame d meta w d' ds :
  returned (run env (Delete d meta) w) = Some (d', ds) -> d' = d.
Proof.
  destruct (env _ (expandACMEClient d meta true) w) as [[[client user]|e] w1] eqn:He.
  - rewrite (run_Delete_lookup_ok _ _ _ _ _ _ He). cbn. by intros [= <- _].
  - rewrite (run_Delete_lookup_err _ _ _ _ _ He). cbn. by intros [= <- _].
Qed.

Lemma Create_frame d meta w d' ds key :
  writesOnlyURL save ->
  returned (run env (Create d meta) w) = Some (d', ds) ->
  key <> "registration_url" ->
  attrs d' !! key = attrs d !! key.
Proof.
  intros Hs Hr Hk.
  destruct (env _ (expandACMEClient d meta false) w) as [[[client user]|e] w1] eqn:He.
  - rewrite (run_Create_client_ok _ _ _ _ _ _ He) in Hr. cbn zeta in Hr.
    destruct (returned (run env (register d client) w1)) as [[reg|e]|]; cbn in Hr.
    + by rewrite (Read_frame _ _ _ _ _ _ Hs Hr Hk).
    + by injection Hr as <- _.
    + discriminate Hr.
  - rewrite (run_Create_client_err _ _ _ _ _ He) in Hr. by injection Hr as <- _.
Qed.

Lemma Create_returns d meta w :
  wellTyped registrationSchema d = true ->
  is_Some (returned (run env (Create d meta) w)).
Proof.
  intros Hwt.
  destruct (env _ (expandACMEClient d meta false) w) as [[[client user]|e] w1] eqn:He.
  - rewrite (run_Create_client_ok _ _ _ _ _ _ He). cbn zeta.
    destruct (register_returns d client w1 Hwt) as (c & _ & ->). cbn [returned trace final].
    destruct (env _ c w1).1 as [reg|e]; cbn; [apply Read_returns | by eexists].
  - rewrite (run_Create_client_err _ _ _ _ _ He). by eexists.
Qed.

End Lifecycle.

(** * Properties *)

(** ** Classification *)

(** C1: [regGone] answers true exactly when the error carries a problem
    document (the one [errors.As] finds) with status 400 and type
    accountDoesNotExist, or status 403 and type unauthorized; every other
    error, with or without a problem document, is a real error. *)
Theorem regGone_exact (err : error) :
  regGone err = true <->
  exists p, errors.As err = Some p /\
    ((acme.HTTPStatus p = 400 /\ acme.Type_ p = accountDoesNotExist) \/
     (acme.HTTPStatus p = 403 /\ acme.Type_ p = unauthorized)).
Proof.
  unfold regGone. split.
  - destruct (errors.As err) as [p|]; [|discriminate].
    intros H. exists p. split; [done|].
    destruct (Z.eqb (acme.HTTPStatus p) 400 && String.eqb (acme.Type_ p) accountDoesNotExist)
      eqn:H400.
    + apply andb_prop in H400 as [Hs Ht]. left.
      split; [by apply Z.eqb_eq | by apply String.eqb_eq].
    + destruct (Z.eqb (acme.HTTPStatus p) 403 && String.eqb (acme.Type_ p) unauthorized)
        eqn:H403; [|discriminate].
      apply andb_prop in H403 as [Hs Ht]. right.
      split; [by apply Z.eqb_eq | by apply String.eqb_eq].
  - intros (p & -> & [[Hs Ht]|[Hs Ht]]); rewrite Hs, Ht; reflexivity.
Qed.

Example regGone_400_accountDoesNotExist :
  regGone (TestCA.problem 400 accountDoesNotExist) = true.
Proof. reflexivity. Qed.

Example regGone_400_malformed : regGone (TestCA.problem 400 malformed) = false.
Proof. reflexivity. Qed.

Example regGone_403_unauthorized : regGone (TestCA.problem 403 unauthorized) = true.
Proof. reflexivity. Qed.

Lemma regGone_403_other (p : acme.ProblemDetails) :
  acme.HTTPStatus p = 403 -> acme.Type_ p <> unauthorized ->
  regGone (problemDetails p) = false.
Proof.
  intros Hs Ht. unfold regGone. cbn. rewrite Hs. cbn.
  by apply String.eqb_neq in Ht as ->.
Qed.

Lemma regGone_no_problem (err : error) : errors.As err = None -> regGone err = false.
Proof. intros H. unfold regGone. by rewrite H. Qed.

Example regGone_network : regGone TestCA.networkError = false.
Proof. reflexivity. Qed.

Example regGone_wrapped :
  regGone (wrapError "resolve account" (TestCA.problem 403 unauthorized)) = true.
Proof. reflexivity. Qed.

(** ** Refresh *)

(** C3: when the account lookup of a refresh fails with an error that
    [regGone] accepts, the record comes back with an empty ID, nothing else
    changed, and with no diagnostics at all. *)
Theorem read_gone_clears_id
    (render : acme.ProblemDetails -> string)
    (save : ResourceData -> option registration.Resource -> ResourceData * option error)
    (W : Type) (env : Env W) (d : ResourceData) (meta : Config) (w w' : W) (e : error) :
  env _ (expandACMEClient d meta true) w = (Err e, w') ->
  regGone e = true ->
  let o := run env (resourceACMERegistrationRead render save d meta) w in
  returned o = Some ({| Id := ""; attrs := attrs d |}, []) /\
  trace o = [Ev (expandACMEClient d meta true) (Err e)].
Proof.
  intros He Hg o. subst o. by rewrite (run_Read_gone _ _ _ _ _ _ _ _ _ He Hg).
Qed.

Lemma read_gone_clears_id_witness :
  returned (run TestCA.env (TestCA.Read TestCA.stale TestCA.meta) TestCA.fresh)
  = Some ({| Id := ""; attrs := attrs TestCA.stale |}, []).
Proof.
  apply (read_gone_clears_id TestCA.render TestCA.save _ TestCA.env TestCA.stale TestCA.meta
           TestCA.fresh TestCA.fresh (TestCA.problem 400 accountDoesNotExist)).
  - vm_compute. reflexivity.
  - reflexivity.
Defined.

(** C4: when the account lookup of a refresh fails with an error that
    [regGone] rejects, the record comes back as it was and the one
    diagnostic is an error whose summary is the error's message. *)
Theorem read_real_error_surfaced
    (render : acme.ProblemDetails -> string)
    (save : ResourceData -> option registration.Resource -> ResourceData * option error)
    (W : Type) (env : Env W) (d : ResourceData) (meta : Config) (w w' : W) (e : error) :
  env _ (expandACMEClient d meta true) w = (Err e, w') ->
  regGone e = false ->
  let o := run env (resourceACMERegistrationRead render save d meta) w in
  returned o =
    Some (d, [ {| diag.Severity_ := diag.Error;
                  diag.Summary := Error_ render e;
                  diag.Detail := "" |} ]) /\
  trace o = [Ev (expandACMEClient d meta true) (Err e)].
Proof.
  intros He Hg o. subst o. by rewrite (run_Read_fatal _ _ _ _ _ _ _ _ _ He Hg).
Qed.

Lemma read_real_error_surfaced_witness :
  returned (run TestCA.env (TestCA.Read TestCA.stale TestCA.meta) TestCA.down)
  = Some (TestCA.stale,
          [ {| diag.Severity_ := diag.Error;
               diag.Summary := "get directory: dial tcp: connection refused";
               diag.Detail := "" |} ]).
Proof.
  apply (read_real_error_surfaced TestCA.render TestCA.save _ TestCA.env TestCA.stale
           TestCA.meta TestCA.down TestCA.down TestCA.networkError).
  - vm_compute. reflexivity.
  - reflexivity.
Defined.

(** ** Delete *)

(** C2, as the code has it: delete classifies nothing. A failed account
    lookup and a failed deactivation both come back as an error diagnostic,
    whatever [regGone] says of the error, and the record is untouched; the
    diagnostics are empty only when both calls succeed. *)
Theorem delete_surfaces_every_error
    (render : acme.ProblemDetails -> string)
    (W : Type) (env : Env W) (d : ResourceData) (meta : Config) (w : W) :
  let o := run env (resourceACMERegistrationDelete render d meta) w in
  match env _ (expandACMEClient d meta true) w with
  | (Err e, _) =>
      returned o = Some (d, FromErr render (Some e)) /\
      diag.HasError (FromErr render (Some e)) = true
  | (Ok (client, _), w1) =>
      match env _ (DeleteRegistration client) w1 with
      | (Some e, _) =>
          returned o = Some (d, FromErr render (Some e)) /\
          diag.HasError (FromErr render (Some e)) = true
      | (None, _) => returned o = Some (d, [])
      end
  end.
Proof.
  intros o. subst o.
  destruct (env _ (expandACMEClient d meta true) w) as [[[client user]|e] w1] eqn:He.
  - rewrite (run_Delete_lookup_ok _ _ _ _ _ _ _ _ _ He). cbn.
    by destruct (env _ (DeleteRegistration client) w1) as [[e|] w2].
  - by rewrite (run_Delete_lookup_err _ _ _ _ _ _ _ _ He).
Qed.

(** C2 fails as stated: create an account, delete it, delete it again. The
    second lookup is answered with 403 unauthorized, which [regGone]
    accepts, and delete reports it as an error. *)
Lemma delete_twice_second_is_error :
  let d := TestCA.registered in
  let gone := TestCA.problem 403 unauthorized in
  let o1 := run TestCA.env (TestCA.Delete d TestCA.meta) (final TestCA.created) in
  let o2 := run TestCA.env (TestCA.Delete d TestCA.meta) (final o1) in
  returned o1 = Some (d, []) /\
  trace o2 = [Ev (expandACMEClient d TestCA.meta true) (Err gone)] /\
  regGone gone = true /\
  returned o2
    = Some (d, [ {| diag.Severity_ := diag.Error;
                    diag.Summary := "acme: error: urn:ietf:params:acme:error:unauthorized :: ";
                    diag.Detail := "" |} ]) /\
  (snd <$> returned o2) <> Some [].
Proof. vm_compute. repeat split; try reflexivity. discriminate. Qed.

(** ** Create *)



(** C6, as the code has it: create leaves the record alone until the
    registration call has succeeded. A failed client construction or a
    rejected registration comes back verbatim, after that one attempt, with
    the record as it was. After a successful registration create sets the
    ID to the account URL and ends as a refresh of that record does. *)
Theorem create_sets_id_after_registration
    (render : acme.ProblemDetails -> string)
    (save : ResourceData -> option registration.Resource -> ResourceData * option error)
    (W : Type) (env : Env W) (d : ResourceData) (meta : Config) (w : W) :
  wellTyped registrationSchema d = true ->
  let o := run env (resourceACMERegistrationCreate render save d meta) w in
  let build := expandACMEClient d meta false in
  match env _ build w with
  | (Err e, w1) =>
      o = {| returned := Some (d, FromErr render (Some e));
             trace := [Ev build (Err e)];
             final := w1 |}
  | (Ok (client, user), w1) =>
      exists c : Call (result registration.Resource),
        isRegistration (Ev c (env _ c w1).1) = true /\
        match env _ c w1 with
        | (Err e, w2) =>
            o = {| returned := Some (d, FromErr render (Some e));
                   trace := [Ev build (Ok (client, user)); Ev c (Err e)];
                   final := w2 |}
        | (Ok reg, w2) =>
            let d1 := SetId d (registration.URI reg) in
            let o' := run env (resourceACMERegistrationRead render save d1 meta) w2 in
            o = {| returned := returned o';
                   trace := Ev build (Ok (client, user)) :: Ev c (Ok reg) :: trace o';
                   final := final o' |}
        end
  end.
Proof.
  intros Hwt o build. subst o build.
  destruct (env _ (expandACMEClient d meta false) w) as [[[client user]|e] w1] eqn:He.
  - rewrite (run_Create_client_ok _ _ _ _ _ _ _ _ _ _ He). cbn zeta.
    destruct (register_returns _ env d client w1 Hwt) as (c & Hc & ->).
    exists c. split; [done|]. cbn [returned trace final].
    by destruct (env _ c w1) as [[reg|e] w2].
  - by rewrite (run_Create_client_err _ _ _ _ _ _ _ _ _ He).
Qed.

Lemma create_sets_id_after_registration_witness :
  run TestCA.env (TestCA.Create TestCA.plain TestCA.meta) TestCA.down
  = {| returned := Some (TestCA.plain, FromErr TestCA.render (Some TestCA.networkError));
       trace := [Ev (expandACMEClient TestCA.plain TestCA.meta false)
                    (Err TestCA.networkError)];
       final := TestCA.down |}.
Proof.
  apply (create_sets_id_after_registration TestCA.render TestCA.save _ TestCA.env
           TestCA.plain TestCA.meta TestCA.down).
  vm_compute. reflexivity.
Defined.

(** C6 fails as stated: the CA accepts the registration and the network
    goes down before the refresh that ends create. Create reports an error,
    and the record, which had no ID, now has the new account URL. *)
Lemma create_fails_with_id_set :
  let o := run TestCA.env (TestCA.Create TestCA.plain TestCA.meta) TestCA.flaky in
  Id TestCA.plain = "" /\
  (fst <$> returned o) = Some (SetId TestCA.plain "https://ca.example/acct/keyA") /\
  (snd <$> returned o)
    = Some [ {| diag.Severity_ := diag.Error;
                diag.Summary := "get directory: dial tcp: connection refused";
                diag.Detail := "" |} ] /\
  (diag.HasError <$> (snd <$> returned o)) = Some true.
Proof. vm_compute. repeat split; reflexivity. Qed.

(** C10, as the code has it: [regGone] is called in the refresh only.
    An error from building the client or from the registration call is
    returned as it is, as an error diagnostic with the record unchanged,
    also when [regGone] would accept it. Create ends in that refresh, so an
    error of the lookup made there is classified: one [regGone] accepts
    turns create into a success with the ID emptied, any other comes back
    as an error diagnostic on the record that carries the new account URL. *)
Theorem create_classifies_only_trailing_lookup
    (render : acme.ProblemDetails -> string)
    (save : ResourceData -> option registration.Resource -> ResourceData * option error)
    (W : Type) (env : Env W) (d : ResourceData) (meta : Config) (w : W) (e : error) :
  let o := run env (resourceACMERegistrationCreate render save d meta) w in
  ((exists w1, env _ (expandACMEClient d meta false) w = (Err e, w1)) \/
   (exists client user w1,
      env _ (expandACMEClient d meta false) w = (Ok (client, user), w1) /\
      returned (run env (register d client) w1) = Some (Err e)) ->
   returned o = Some (d, FromErr render (Some e)) /\
   diag.HasError (FromErr render (Some e)) = true)
  /\
  (forall client user w1 reg sent w2 w3,
     env _ (expandACMEClient d meta false) w = (Ok (client, user), w1) ->
     run env (register d client) w1
       = {| returned := Some (Ok reg); trace := sent; final := w2 |} ->
     env _ (expandACMEClient (SetId d (registration.URI reg)) meta true) w2 = (Err e, w3) ->
     returned o =
       Some (if regGone e
             then ({| Id := ""; attrs := attrs d |}, [])
             else (SetId d (registration.URI reg), FromErr render (Some e)))).
Proof.
  cbn zeta. split.
  - intros [(w1 & He)|(client & user & w1 & He & Hr)]; split; try reflexivity.
    + by rewrite (run_Create_client_err _ _ _ _ _ _ _ _ _ He).
    + rewrite (run_Create_client_ok _ _ _ _ _ _ _ _ _ _ He). cbn zeta. by rewrite Hr.
  - intros client user w1 reg sent w2 w3 He Hr Hl.
    rewrite (run_Create_client_ok _ _ _ _ _ _ _ _ _ _ He). cbn zeta.
    rewrite Hr. cbn [returned trace final].
    destruct (regGone e) eqn:Hg.
    + by rewrite (run_Read_gone _ _ _ _ _ _ _ _ _ Hl Hg).
    + by rewrite (run_Read_fatal _ _ _ _ _ _ _ _ _ Hl Hg).
Qed.

Lemma create_classifies_only_trailing_lookup_witness :
  (regGone (TestCA.problem 403 unauthorized) = true /\
   returned (run TestCA.env (TestCA.Create TestCA.bound TestCA.meta) TestCA.strict)
   = Some (TestCA.bound, FromErr TestCA.render (Some (TestCA.problem 403 unauthorized))))
  /\
  returned (run TestCA.env (TestCA.Create TestCA.plain TestCA.meta) TestCA.flaky)
  = Some (SetId TestCA.plain "https://ca.example/acct/keyA",
          FromErr TestCA.render (Some TestCA.networkError)).
Proof.
  split; [split; [reflexivity|]|].
  - apply (create_classifies_only_trailing_lookup TestCA.render TestCA.save _ TestCA.env
             TestCA.bound TestCA.meta TestCA.strict (TestCA.problem 403 unauthorized)).
    right.
    exists {| lego.accountKey := "keyB"; lego.CADirURL := "https://ca.example/directory" |},
           {| Email := ""; Registration := None |}, TestCA.strict.
    split; vm_compute; reflexivity.
  - pose (client := {| lego.accountKey := "keyA";
                       lego.CADirURL := "https://ca.example/directory" |}).
    pose (reg := {| registration.Body := {| acme.Status := "valid"; acme.Contact := [] |};
                    registration.URI := "https://ca.example/acct/keyA" |}).
    pose (w1 := {| TestCA.accounts := ∅; TestCA.requiredBinding := None;
                   TestCA.budget := Some 1%nat |}).
    pose (w2 := {| TestCA.accounts :=
                     {[ "keyA" := ("https://ca.example/acct/keyA", "valid") ]};
                   TestCA.requiredBinding := None;
                   TestCA.budget := Some 0%nat |}).
    destruct (create_classifies_only_trailing_lookup TestCA.render TestCA.save _ TestCA.env
                TestCA.plain TestCA.meta TestCA.flaky TestCA.networkError) as [_ H].
    apply (H client {| Email := ""; Registration := None |} w1 reg
             [Ev (Register client
                    {| registration.RegisterOptions.TermsOfServiceAgreed := true |})
                 (Ok reg)] w2 w2).
    + vm_compute. reflexivity.
    + vm_compute. reflexivity.
    + vm_compute. reflexivity.
Defined.

(** C10 fails as stated: the CA registers the account and answers the
    lookup that ends create with 400 accountDoesNotExist. That error arises
    during create, [regGone] accepts it, and create turns it into a success
    with the ID emptied. *)
Lemma create_gone_lookup_becomes_success :
  let o := run (Script.env Script.forgetful)
             (TestCA.Create TestCA.plain TestCA.meta) 0%nat in
  let gone := TestCA.problem 400 accountDoesNotExist in
  trace o
    = [Ev (expandACMEClient TestCA.plain TestCA.meta false)
          (Ok (Script.client, {| Email := ""; Registration := None |}));
       Ev (Register Script.client
             {| registration.RegisterOptions.TermsOfServiceAgreed := true |})
          (Ok Script.account);
       Ev (expandACMEClient (SetId TestCA.plain "https://ca.example/acct/1") TestCA.meta true)
          (Err gone)] /\
  regGone gone = true /\
  returned o = Some ({| Id := ""; attrs := attrs TestCA.plain |}, []).
Proof. vm_compute. repeat split; reflexivity. Qed.

(** A binding whose one element is nil makes create panic once the client
    is built. *)
Example binding_nil_element_panics :
  let d := {| Id := "";
              attrs := {[ "account_key_pem" := VString "keyB";
                          "email_address" := VString "b@example.com";
                          "external_account_binding" := VList [VNil] ]} |} in
  wellTyped registrationSchema d = false /\
  returned (run TestCA.env (TestCA.Create d TestCA.meta) TestCA.fresh) = None.
Proof. vm_compute. split; reflexivity. Qed.

(** ** The write-once fields *)

(** C7: the resource has no update operation; [account_key_pem],
    [email_address] and [external_account_binding], and the binding's
    [key_id] and [hmac_base64], are all declared [ForceNew]; and none of the
    resource's operations changes one of the three attributes, given that
    the helper that saves the registration writes [registration_url] only. *)
Theorem write_once_fields
    (render : acme.ProblemDetails -> string)
    (save : ResourceData -> option registration.Resource -> ResourceData * option error) :
  writesOnlyURL save ->
  let R := resourceACMERegistration render save in
  UpdateContext R = None /\
  (forall key, In key writeOnce ->
     exists s, lookup key (Schema_ R) = Some s /\ ForceNew s = true) /\
  (exists s fields,
     lookup eabKey (Schema_ R) = Some s /\ Elem s = Some fields /\
     forall key, In key ["key_id"; "hmac_base64"] ->
       exists s', lookup key fields = Some s' /\ ForceNew s' = true) /\
  (forall op,
     In (Some op) [CreateContext R; ReadContext R; UpdateContext R; DeleteContext R] ->
     forall (W : Type) (env : Env W) d meta w d' ds,
       returned (run env (op d meta) w) = Some (d', ds) ->
       forall key, In key writeOnce -> attrs d' !! key = attrs d !! key).
Proof.
  intros Hs R. subst R. split; [reflexivity|]. split; [|split].
  - intros key [<-|[<-|[<-|[]]]]; eexists; split; reflexivity.
  - do 2 eexists. split; [reflexivity|]. split; [reflexivity|].
    intros key [<-|[<-|[]]]; eexists; split; reflexivity.
  - intros op Hop W env d meta w d' ds Hr key Hkey.
    assert (key <> "registration_url") as Hne.
    { destruct Hkey as [<-|[<-|[<-|[]]]]; discriminate. }
    cbn in Hop. destruct Hop as [[= <-]|[[= <-]|[[=]|[[= <-]|[]]]]].
    + by eapply Create_frame.
    + by eapply Read_frame.
    + by rewrite (Delete_frame _ _ _ _ _ _ _ _ Hr).
Qed.

Lemma TestCA_save_writesOnlyURL : writesOnlyURL TestCA.save.
Proof.
  intros d [r|] key Hne; cbn; [|done]. by rewrite lookup_insert_ne.
Defined.

Lemma write_once_fields_witness :
  match returned (run TestCA.env (TestCA.Create TestCA.bound TestCA.meta) TestCA.fresh) with
  | Some (d', _) => attrs d' !! "account_key_pem" = Some (VString "keyB")
  | None => False
  end.
Proof.
  destruct (returned (run TestCA.env (TestCA.Create TestCA.bound TestCA.meta) TestCA.fresh))
    as [[d' ds]|] eqn:Hr.
  - destruct (write_once_fields TestCA.render TestCA.save TestCA_save_writesOnlyURL)
      as (_ & _ & _ & Hops).
    rewrite (Hops (resourceACMERegistrationCreate TestCA.render TestCA.save)
               (or_introl eq_refl) _ TestCA.env TestCA.bound TestCA.meta TestCA.fresh d' ds Hr
               "account_key_pem" (or_introl eq_refl)).
    reflexivity.
  - vm_compute in Hr. discriminate Hr.
Defined.

(** ** Create, then refresh *)





(** * Further properties *)

(** ** Errors and classification *)

(** Induction over errors, with the members of a joined error covered. *)
Lemma error_induction (P : error -> Prop) :
  (forall p, P (problemDetails p)) ->
  (forall s, P (errorString s)) ->
  (forall msg inner, P inner -> P (wrapError msg inner)) ->
  (forall errs, Forall P errs -> P (joinError errs)) ->
  forall err, P err.
Proof.
  intros Hp Hs Hw Hj. fix IH 1. intros [p|s|msg inner|errs].
  - apply Hp.
  - apply Hs.
  - apply Hw, IH.
  - apply Hj. induction errs as [|e errs IHerrs]; constructor; [apply IH | exact IHerrs].
Qed.

Lemma As_joinError (errs : list error) :
  errors.As (joinError errs) =
  match errs with
  | [] => None
  | e :: rest =>
      match errors.As e with
      | Some p => Some p
      | None => errors.As (joinError rest)
      end
  end.
Proof. by destruct errs. Qed.

(** X1: context added with [%w], however many layers of it, does not change
    how an error is classified. *)
Theorem regGone_through_wraps (msgs : list string) (err : error) :
  regGone (foldr wrapError err msgs) = regGone err.
Proof.
  induction msgs as [|msg msgs IH]; [reflexivity|].
  cbn [foldr]. rewrite <- IH. reflexivity.
Qed.

(** X2: a joined error is classified by its first member in which
    [errors.As] finds a problem document; with no such member it is a real
    error. Documents in later members are not looked at. *)
Theorem regGone_join_first_document (errs : list error) :
  regGone (joinError errs) =
  match List.find carriesDocument errs with
  | Some e => regGone e
  | None => false
  end.
Proof.
  induction errs as [|e rest IH]; [reflexivity|].
  cbn [List.find]. unfold carriesDocument at 1.
  unfold regGone at 1. rewrite As_joinError.
  destruct (errors.As e) as [p|] eqn:He.
  - unfold regGone. by rewrite He.
  - exact IH.
Qed.

Example regGone_join_later_document_ignored :
  regGone (joinError [TestCA.problem 500 "urn:ietf:params:acme:error:serverInternal";
                      TestCA.problem 403 unauthorized]) = false.
Proof. reflexivity. Qed.

(** X3: [errors.As] finds nothing exactly when no problem document sits
    anywhere inside the error, and such an error is never classified as
    account gone. *)
Theorem no_document_is_real_error (err : error) :
  (errors.As err = None <-> hasProblem err = false) /\
  (hasProblem err = false -> regGone err = false).
Proof.
  assert (errors.As err = None <-> hasProblem err = false) as Hiff.
  { induction err as [p|s|msg inner IH|errs IH] using error_induction.
    - done.
    - done.
    - exact IH.
    - induction IH as [|e rest He _ IHrest]; [done|].
      rewrite As_joinError. cbn [hasProblem existsb].
      destruct (errors.As e) as [p|] eqn:HAs.
      + split; [discriminate|].
        intros H. apply orb_false_elim in H as [H _].
        apply He in H. discriminate H.
      + destruct He as [He _]. rewrite (He eq_refl). cbn [orb]. exact IHrest. }
  split; [exact Hiff|].
  intros H. apply Hiff in H. unfold regGone. by rewrite H.
Qed.

Lemma no_document_is_real_error_witness :
  regGone (joinError [errorString "timeout"; wrapError "retry" (errorString "eof")]) = false.
Proof.
  apply (no_document_is_real_error
           (joinError [errorString "timeout"; wrapError "retry" (errorString "eof")])).
  reflexivity.
Defined.

(** ** The binding accessors *)

(** X4: the accessor chain of lines 76-77 yields a string exactly when the
    value is a list whose first element is a map holding a string under the
    key; an empty list, a first element that is not a map, a missing key
    and a value that is not a string all fault. *)
Theorem eabField_some_iff (v : value) (key s : string) :
  eabField v key = Some s <->
  exists m rest, v = VList (VMap m :: rest) /\ m !! key = Some (VString s).
Proof.
  split.
  - destruct v as [| | | |l|]; try discriminate.
    destruct l as [|item rest]; [discriminate|].
    destruct item as [| | | | |m]; try discriminate.
    cbn. destruct (m !! key) as [[| | |s'| |]|] eqn:Hk; try discriminate.
    intros [= ->]. by exists m, rest.
  - intros (m & rest & -> & Hk). cbn. by rewrite Hk.
Qed.

(** ** The registration step on any record *)

Section Register.

Variable W : Type.
Variable env : Env W.

(** What [register] does on any record, well typed or not. *)
Lemma run_register d client w :
  run env (register d client) w =
  let (v, ok) := GetOk registrationSchema d eabKey in
  if ok then
    match eabField v "key_id", eabField v "hmac_base64" with
    | Some kid, Some hmac =>
        let c := RegisterWithExternalAccountBinding client
                   {| registration.RegisterEABOptions.TermsOfServiceAgreed := true;
                      registration.RegisterEABOptions.Kid := kid;
                      registration.RegisterEABOptions.HmacEncoded := hmac |} in
        {| returned := Some (env _ c w).1; trace := [Ev c (env _ c w).1];
           final := (env _ c w).2 |}
    | _, _ => {| returned := None; trace := []; final := w |}
    end
  else
    let c := Register client
               {| registration.RegisterOptions.TermsOfServiceAgreed := true |} in
    {| returned := Some (env _ c w).1; trace := [Ev c (env _ c w).1]; final := (env _ c w).2 |}.
Proof.
  unfold register. fold eabKey.
  destruct (GetOk registrationSchema d eabKey) as [v [|]].
  - destruct (eabField v "key_id") as [kid|]; [|reflexivity].
    destruct (eabField v "hmac_base64") as [hmac|]; [|reflexivity].
    cbn [assert bind]. apply run_call.
  - apply run_call.
Qed.

(** The step panics exactly on a binding that is set and cannot be read,
    and then nothing has been sent. *)
Lemma register_panics_iff d client w :
  returned (run env (register d client) w) = None <->
  exists v, GetOk registrationSchema d eabKey = (v, true) /\
            (eabField v "key_id" = None \/ eabField v "hmac_base64" = None).
Proof.
  rewrite run_register.
  destruct (GetOk registrationSchema d eabKey) as [v [|]].
  - destruct (eabField v "key_id") as [kid|] eqn:Hk;
      [destruct (eabField v "hmac_base64") as [hmac|] eqn:Hh|].
    + cbn. split; [discriminate|].
      intros (v' & [= <-] & [H|H]); congruence.
    + cbn. split; [|done]. intros _. exists v. auto.
    + cbn. split; [|done]. intros _. exists v. auto.
  - cbn. split; [discriminate|]. intros (v' & [=] & _).
Qed.

Lemma register_trace d client w :
  let o := run env (register d client) w in
  List.filter isDeactivation (trace o) = [] /\
  (returned o = None -> trace o = []) /\
  (length (List.filter isRegistration (trace o)) <= 1)%nat.
Proof.
  cbn zeta. rewrite run_register.
  destruct (GetOk registrationSchema d eabKey) as [v [|]].
  - destruct (eabField v "key_id") as [kid|]; [|cbn; auto with lia].
    destruct (eabField v "hmac_base64") as [hmac|]; [|cbn; auto with lia].
    cbn. split; [done|]. split; [discriminate|lia].
  - cbn. split; [done|]. split; [discriminate|lia].
Qed.

End Register.

(** ** Create *)

(** X5: create panics exactly when the client was built and the binding is
    set but its [key_id] or [hmac_base64] cannot be read; and a create that
    panics has sent no registration to the CA. *)
Theorem create_panics_iff
    (render : acme.ProblemDetails -> string)
    (save : ResourceData -> option registration.Resource -> ResourceData * option error)
    (W : Type) (env : Env W) (d : ResourceData) (meta : Config) (w : W) :
  let o := run env (resourceACMERegistrationCreate render save d meta) w in
  (returned o = None <->
   (exists client user w1 v,
      env _ (expandACMEClient d meta false) w = (Ok (client, user), w1) /\
      GetOk registrationSchema d eabKey = (v, true) /\
      (eabField v "key_id" = None \/ eabField v "hmac_base64" = None))) /\
  (returned o = None -> List.filter isRegistration (trace o) = []).
Proof.
  cbn zeta.
  destruct (env _ (expandACMEClient d meta false) w) as [[[client user]|e] w1] eqn:He.
  - rewrite (run_Create_client_ok _ _ _ _ _ _ _ _ _ _ He). cbn zeta.
    pose proof (register_panics_iff W env d client w1) as Hp.
    pose proof (register_trace W env d client w1) as (_ & Ht & _). cbn zeta in Ht.
    destruct (returned (run env (register d client) w1)) as [[reg|e]|] eqn:Hr.
    + cbn [returned trace]. split.
      * split.
        -- intros H. destruct (Read_returns render save W env
                                 (SetId d (registration.URI reg)) meta
                                 (final (run env (register d client) w1))) as [x Hx].
           rewrite Hx in H. discriminate H.
        -- intros (c' & u' & w' & v & [= <- <- <-] & Hv).
           destruct Hp as [_ Hp]. discriminate Hp. by exists v.
      * intros H. destruct (Read_returns render save W env
                              (SetId d (registration.URI reg)) meta
                              (final (run env (register d client) w1))) as [x Hx].
        rewrite Hx in H. discriminate H.
    + cbn [returned trace]. split; [|discriminate]. split; [discriminate|].
      intros (c' & u' & w' & v & [= <- <- <-] & Hv).
      destruct Hp as [_ Hp]. discriminate Hp. by exists v.
    + cbn [returned trace]. split.
      * split; [|done]. intros _.
        destruct Hp as [Hp _]. destruct (Hp eq_refl) as (v & Hv).
        by exists client, user, w1, v.
      * intros _. by rewrite (Ht eq_refl).
  - rewrite (run_Create_client_err _ _ _ _ _ _ _ _ _ He). cbn [returned].
    split; [|discriminate]. split; [discriminate|].
    intros (c' & u' & w' & v & [=] & _).
Qed.

Lemma create_panics_iff_witness :
  List.filter isRegistration
    (trace (run TestCA.env
              (TestCA.Create
                 {| Id := "";
                    attrs := {[ "account_key_pem" := VString "keyB";
                                "external_account_binding" := VList [VNil] ]} |}
                 TestCA.meta)
              TestCA.fresh)) = [].
Proof.
  apply (create_panics_iff TestCA.render TestCA.save _ TestCA.env
           {| Id := "";
              attrs := {[ "account_key_pem" := VString "keyB";
                          "external_account_binding" := VList [VNil] ]} |}
           TestCA.meta TestCA.fresh).
  vm_compute. reflexivity.
Defined.

(** X6: whichever registration call is made, when the CA accepts it and
    answers the lookup that follows, create returns what the helper saved
    from that lookup into the record carrying the new account URL; the
    calls are the client construction, the registration, and one lookup. *)
Theorem create_success_composes
    (render : acme.ProblemDetails -> string)
    (save : ResourceData -> option registration.Resource -> ResourceData * option error)
    (W : Type) (env : Env W) (d : ResourceData) (meta : Config) (w w1 w2 w3 : W)
    (client c2 : lego.Client) (user u2 : acmeUser) (reg : registration.Resource)
    (sent : list Event) :
  env _ (expandACMEClient d meta false) w = (Ok (client, user), w1) ->
  run env (register d client) w1
    = {| returned := Some (Ok reg); trace := sent; final := w2 |} ->
  let d1 := SetId d (registration.URI reg) in
  env _ (expandACMEClient d1 meta true) w2 = (Ok (c2, u2), w3) ->
  run env (resourceACMERegistrationCreate render save d meta) w
  = {| returned := Some ((save d1 (Registration u2)).1,
                         FromErr render (save d1 (Registration u2)).2);
       trace := Ev (expandACMEClient d meta false) (Ok (client, user))
                :: sent ++ [Ev (expandACMEClient d1 meta true) (Ok (c2, u2))];
       final := w3 |}.
Proof.
  intros He Hr d1 Hl.
  rewrite (run_Create_client_ok _ _ _ _ _ _ _ _ _ _ He). cbn zeta.
  rewrite Hr. cbn [returned trace final]. fold d1.
  by rewrite (run_Read_ok _ _ _ _ _ _ _ _ _ _ Hl).
Qed.

Lemma create_success_composes_witness :
  (Id <$> (fst <$> returned (run TestCA.env (TestCA.Create TestCA.bound TestCA.meta) enrolling)))
  = Some "https://ca.example/acct/keyB" /\
  length (trace (run TestCA.env (TestCA.Create TestCA.bound TestCA.meta) enrolling)) = 3%nat.
Proof.
  pose (client := {| lego.accountKey := "keyB";
                     lego.CADirURL := "https://ca.example/directory" |}).
  pose (reg := {| registration.Body := {| acme.Status := "valid"; acme.Contact := [] |};
                  registration.URI := "https://ca.example/acct/keyB" |}).
  pose (w2 := TestCA.setAccounts enrolling
                {[ "keyB" := ("https://ca.example/acct/keyB", "valid") ]}).
  unfold TestCA.Create.
  rewrite (create_success_composes TestCA.render TestCA.save _ TestCA.env
             TestCA.bound TestCA.meta enrolling enrolling w2 w2
             client client {| Email := ""; Registration := None |}
             {| Email := ""; Registration := Some reg |} reg
             [Ev (RegisterWithExternalAccountBinding client
                    {| registration.RegisterEABOptions.TermsOfServiceAgreed := true;
                       registration.RegisterEABOptions.Kid := "K1";
                       registration.RegisterEABOptions.HmacEncoded := "aGVsbG8=" |})
                 (Ok reg)]).
  - split; reflexivity.
  - vm_compute. reflexivity.
  - vm_compute. reflexivity.
  - vm_compute. reflexivity.
Defined.

(** X7: when the CA accepts the registration and then answers the lookup
    with an error [regGone] accepts, create reports success: no
    diagnostics, and a record with an empty ID and its attributes as they
    were. *)
Theorem create_gone_after_registration
    (render : acme.ProblemDetails -> string)
    (save : ResourceData -> option registration.Resource -> ResourceData * option error)
    (W : Type) (env : Env W) (d : ResourceData) (meta : Config) (w w1 w2 w3 : W)
    (client : lego.Client) (user : acmeUser) (reg : registration.Resource)
    (sent : list Event) (e : error) :
  env _ (expandACMEClient d meta false) w = (Ok (client, user), w1) ->
  run env (register d client) w1
    = {| returned := Some (Ok reg); trace := sent; final := w2 |} ->
  env _ (expandACMEClient (SetId d (registration.URI reg)) meta true) w2 = (Err e, w3) ->
  regGone e = true ->
  returned (run env (resourceACMERegistrationCreate render save d meta) w)
  = Some ({| Id := ""; attrs := attrs d |}, []).
Proof.
  intros He Hr Hl Hg.
  rewrite (run_Create_client_ok _ _ _ _ _ _ _ _ _ _ He). cbn zeta.
  rewrite Hr. cbn [returned trace final].
  by rewrite (run_Read_gone _ _ _ _ _ _ _ _ _ Hl Hg).
Qed.

Lemma create_gone_after_registration_witness :
  returned (run (Script.env Script.forgetful) (TestCA.Create TestCA.plain TestCA.meta) 0%nat)
  = Some ({| Id := ""; attrs := attrs TestCA.plain |}, []).
Proof.
  apply (create_gone_after_registration TestCA.render TestCA.save _
           (Script.env Script.forgetful) TestCA.plain TestCA.meta 0%nat 1%nat 2%nat 3%nat
           Script.client {| Email := ""; Registration := None |} Script.account
           [Ev (Register Script.client
                  {| registration.RegisterOptions.TermsOfServiceAgreed := true |})
               (Ok Script.account)]
           (TestCA.problem 400 accountDoesNotExist)).
  - reflexivity.
  - vm_compute. reflexivity.
  - reflexivity.
  - reflexivity.
Defined.

(** ** Refresh *)



(** X9: a refresh comes back without diagnostics in exactly two cases: the
    lookup failed with an error [regGone] accepts, or the lookup succeeded
    and the helper saved the registration without an error. *)
Theorem read_succeeds_iff
    (render : acme.ProblemDetails -> string)
    (save : ResourceData -> option registration.Resource -> ResourceData * option error)
    (W : Type) (env : Env W) (d : ResourceData) (meta : Config) (w : W) :
  let o := run env (resourceACMERegistrationRead render save d meta) w in
  let answer := (env _ (expandACMEClient d meta true) w).1 in
  (snd <$> returned o) = Some [] <->
  (exists e, answer = Err e /\ regGone e = true) \/
  (exists client user,
     answer = Ok (client, user) /\ (save d (Registration user)).2 = None).
Proof.
  cbn zeta. rewrite run_Read. cbn.
  destruct (env _ (expandACMEClient d meta true) w).1 as [[client user]|e].
  - cbn. split.
    + intros H. right. exists client, user. split; [done|].
      by destruct (save d (Registration user)).2.
    + intros [(e & [=] & _)|(c' & u' & [= <- <-] & Hs)]. by rewrite Hs.
  - destruct (regGone e) eqn:Hg; cbn.
    + split; [|done]. intros _. left. by exists e.
    + split; [discriminate|].
      intros [(e' & [= <-] & Hg')|(c' & u' & [=] & _)]. congruence.
Qed.

(** ** Delete *)

(** X10: delete asks for the deactivation only after the lookup has
    succeeded, once, and through the client that lookup returned; when the
    lookup fails nothing else is sent. *)
Theorem delete_call_order
    (render : acme.ProblemDetails -> string)
    (W : Type) (env : Env W) (d : ResourceData) (meta : Config) (w : W) :
  let o := run env (resourceACMERegistrationDelete render d meta) w in
  let lookup := expandACMEClient d meta true in
  match env _ lookup w with
  | (Err e, w1) => trace o = [Ev lookup (Err e)] /\ final o = w1
  | (Ok (client, user), w1) =>
      trace o = [Ev lookup (Ok (client, user));
                 Ev (DeleteRegistration client) (env _ (DeleteRegistration client) w1).1] /\
      final o = (env _ (DeleteRegistration client) w1).2
  end.
Proof.
  cbn zeta.
  destruct (env _ (expandACMEClient d meta true) w) as [[[client user]|e] w1] eqn:He.
  - by rewrite (run_Delete_lookup_ok _ _ _ _ _ _ _ _ _ He).
  - by rewrite (run_Delete_lookup_err _ _ _ _ _ _ _ _ He).
Qed.

(** ** What the operations never send *)

(** X11: on any record and against any CA, a refresh sends neither a
    registration nor a deactivation; create sends no deactivation and at
    most one registration; delete sends no registration and at most one
    deactivation. *)
Theorem operations_stay_in_their_lane
    (render : acme.ProblemDetails -> string)
    (save : ResourceData -> option registration.Resource -> ResourceData * option error)
    (W : Type) (env : Env W) (d : ResourceData) (meta : Config) (w : W) :
  let refresh := trace (run env (resourceACMERegistrationRead render save d meta) w) in
  let create := trace (run env (resourceACMERegistrationCreate render save d meta) w) in
  let delete := trace (run env (resourceACMERegistrationDelete render d meta) w) in
  List.filter isRegistration refresh = [] /\
  List.filter isDeactivation refresh = [] /\
  List.filter isDeactivation create = [] /\
  (length (List.filter isRegistration create) <= 1)%nat /\
  List.filter isRegistration delete = [] /\
  (length (List.filter isDeactivation delete) <= 1)%nat.
Proof.
  cbn zeta.
  assert (forall d0 w0,
            List.filter isRegistration
              (trace (run env (resourceACMERegistrationRead render save d0 meta) w0)) = [] /\
            List.filter isDeactivation
              (trace (run env (resourceACMERegistrationRead render save d0 meta) w0)) = [])
    as Hread.
  { intros d0 w0. by rewrite run_Read. }
  destruct (Hread d w) as [Hr1 Hr2].
  split; [exact Hr1|]. split; [exact Hr2|].
  assert (List.filter isDeactivation
            (trace (run env (resourceACMERegistrationCreate render save d meta) w)) = [] /\
          (length (List.filter isRegistration
             (trace (run env (resourceACMERegistrationCreate render save d meta) w))) <= 1)%nat)
    as [Hc1 Hc2].
  { destruct (env _ (expandACMEClient d meta false) w) as [[[client user]|e] w1] eqn:He.
    - rewrite (run_Create_client_ok _ _ _ _ _ _ _ _ _ _ He). cbn zeta.
      destruct (register_trace W env d client w1) as (Hd & _ & Hn). cbn zeta in Hd, Hn.
      destruct (returned (run env (register d client) w1)) as [[reg|e]|];
        cbn [trace List.filter isRegistration isDeactivation].
      + rewrite !List.filter_app, Hd, length_app.
        destruct (Hread (SetId d (registration.URI reg))
                    (final (run env (register d client) w1))) as [-> ->].
        split; [reflexivity|]. cbn [length]. lia.
      + split; [exact Hd | exact Hn].
      + split; [exact Hd | exact Hn].
    - rewrite (run_Create_client_err _ _ _ _ _ _ _ _ _ He). cbn. split; [done|lia]. }
  split; [exact Hc1|]. split; [exact Hc2|].
  destruct (env _ (expandACMEClient d meta true) w) as [[[client user]|e] w1] eqn:He.
  - rewrite (run_Delete_lookup_ok _ _ _ _ _ _ _ _ _ He). cbn. split; [done|lia].
  - rewrite (run_Delete_lookup_err _ _ _ _ _ _ _ _ He). cbn. split; [done|lia].
Qed.

(** ** Create on a configuration under the schema *)

Section Configured.

Variable render : acme.ProblemDetails -> string.
Variable save : ResourceData -> option registration.Resource -> ResourceData * option error.
Variable W : Type.
Variable env : Env W.

(** Once the client is built, create panics exactly when the registration
    step does. *)
Lemma Create_panics_with_register d meta w client user w1 :
  env _ (expandACMEClient d meta false) w = (Ok (client, user), w1) ->
  returned (run env (resourceACMERegistrationCreate render save d meta) w) = None <->
  returned (run env (register d client) w1) = None.
Proof.
  intros He. rewrite (run_Create_client_ok _ _ _ _ _ _ _ _ _ _ He). cbn zeta.
  destruct (returned (run env (register d client) w1)) as [[reg|e]|]; cbn [returned].
  - destruct (Read_returns render save W env (SetId d (registration.URI reg)) meta
                (final (run env (register d client) w1))) as [x ->].
    split; discriminate.
  - split; discriminate.
  - done.
Qed.

Lemma GetOk_readConfigured c :
  GetOk registrationSchema (readConfigured c) eabKey =
  let v := VList (readBlock <$> external_account_binding c) in
  (v, negb (isZero TypeList v)).
Proof.
  rewrite GetOk_binding. unfold readConfigured, eabKey. cbn [attrs].
  by rewrite lookup_insert_eq.
Qed.

End Configured.

(** C9, where the code breaks it: among the configurations the schema
    admits, create panics, once the client is built, exactly on the one
    binding block whose [key_id] and [hmac_base64] are both empty. The SDK
    reads that block as a nil element, [GetOk] reports the binding as set,
    and the assertion to a map at line 76 fails. *)
Theorem create_panics_on_empty_binding_block
    (render : acme.ProblemDetails -> string)
    (save : ResourceData -> option registration.Resource -> ResourceData * option error)
    (W : Type) (env : Env W) (c : Configured) (meta : Config) (w w1 : W)
    (client : lego.Client) (user : acmeUser) :
  satisfiesSchema c = true ->
  env _ (expandACMEClient (readConfigured c) meta false) w = (Ok (client, user), w1) ->
  returned (run env (resourceACMERegistrationCreate render save (readConfigured c) meta) w)
    = None <->
  external_account_binding c = [("", "")].
Proof.
  intros Hs He.
  rewrite (Create_panics_with_register render save W env _ _ _ _ _ _ He).
  rewrite register_panics_iff, GetOk_readConfigured. cbn zeta.
  unfold satisfiesSchema in Hs.
  destruct (external_account_binding c) as [|[kid hmac] [|b rest]]; [| |discriminate Hs].
  - cbn. split; [|discriminate]. intros (v & [=] & _).
  - cbn [fmap list_fmap isZero negb]. unfold readBlock. cbn [fst snd].
    destruct (String.eqb_spec kid "") as [->|Hk].
    + destruct (String.eqb_spec hmac "") as [->|Hh]; cbn [andb].
      * split; [done|]. intros _. eexists. split; [reflexivity|]. by left.
      * split; [|intros [= ?]; done].
        intros (v & [= <-] & [H|H]); cbn in H; discriminate H.
    + cbn [andb]. split; [|intros [= ? ?]; done].
      intros (v & [= <-] & [H|H]); cbn in H; discriminate H.
Qed.

Lemma create_panics_on_empty_binding_block_witness :
  satisfiesSchema emptyBinding = true /\
  returned (run TestCA.env (TestCA.Create (readConfigured emptyBinding) TestCA.meta)
              TestCA.fresh) = None.
Proof.
  split; [reflexivity|].
  apply (create_panics_on_empty_binding_block TestCA.render TestCA.save _ TestCA.env
           emptyBinding TestCA.meta TestCA.fresh TestCA.fresh
           {| lego.accountKey := "keyB"; lego.CADirURL := "https://ca.example/directory" |}
           {| Email := ""; Registration := None |}).
  - reflexivity.
  - vm_compute. reflexivity.
  - reflexivity.
Defined.
